(** * CST816S touch-controller driver: a shallow embedding of CST816S.cpp

    The driver talks to the chip through the Arduino [Wire] object and a few
    GPIO calls.  Every call that leaves the driver is recorded, in order, in a
    trace of [HwCall]s; what the bus answers (the status of
    [Wire.endTransmission], the value of [Wire.read]) is given by two
    functions of the calls made so far.  Driver methods are computations in a
    state monad over [Sys]: the trace, the driver object and the host
    application's own state. *)

From Stdlib Require Import ZArith String List Bool Lia.
Import ListNotations.
Open Scope Z_scope.

(** ** Fixed-width conversions *)

(** Conversion of an [int] to [uint8_t] / [byte]. *)
Definition to_uint8 (v : Z) : Z := v mod 256.

(** Conversion of an [int] to [uint16_t]. *)
Definition to_uint16 (v : Z) : Z := v mod 65536.

(** ** Calls made on the platform *)

Inductive PinLevel : Type := LOW | HIGH.

Inductive HwCall : Type :=
| BeginTransmission (addr : Z)
| WriteByte (b : Z)
| EndTransmission (sendStop : bool)
| RequestFrom (addr : Z) (len : nat) (sendStop : bool)
| ReadByte
| DigitalWrite (pin : Z) (level : PinLevel)
| Delay (ms : Z).

(** Number of bus transactions opened in a run of calls. *)
Fixpoint transactions (t : list HwCall) : nat :=
  match t with
  | [] => O
  | BeginTransmission _ :: r => S (transactions r)
  | _ :: r => transactions r
  end.

(** ** The driver object *)

(** Modelled from the spec: [struct data_struct] is declared in CST816S.h,
    which is not part of the sources at hand.  The three status fields are
    bytes; [x] and [y] are integer coordinates wide enough for the 12-bit
    values the decoder produces, so storing into them does not truncate
    (see [coordinate_range]). *)
Record data_struct : Type := mk_data {
  gestureID : Z;
  points : Z;
  event : Z;
  x : Z;
  y : Z;
  version : Z;
  versionInfo : list Z
}.

Record CST816S (callback : Type) : Type := mk_CST816S {
  _sda : Z;
  _scl : Z;
  _rst : Z;
  _irq : Z;
  data : data_struct;
  _event_available : bool;
  userISR : option callback
}.

Arguments mk_CST816S {callback}.
Arguments _sda {callback}.
Arguments _scl {callback}.
Arguments _rst {callback}.
Arguments _irq {callback}.
Arguments data {callback}.
Arguments _event_available {callback}.
Arguments userISR {callback}.

(** The whole machine: calls made so far (oldest first), the driver
    object, and the state of the host application. *)
Record Sys (U callback : Type) : Type := mk_Sys {
  hw : list HwCall;
  obj : CST816S callback;
  host : U
}.

Arguments mk_Sys {U callback}.
Arguments hw {U callback}.
Arguments obj {U callback}.
Arguments host {U callback}.

(** Field assignments. *)
Definition set_gestureID (v : Z) (d : data_struct) : data_struct :=
  mk_data v (points d) (event d) (x d) (y d) (version d) (versionInfo d).
Definition set_points (v : Z) (d : data_struct) : data_struct :=
  mk_data (gestureID d) v (event d) (x d) (y d) (version d) (versionInfo d).
Definition set_event (v : Z) (d : data_struct) : data_struct :=
  mk_data (gestureID d) (points d) v (x d) (y d) (version d) (versionInfo d).
Definition set_x (v : Z) (d : data_struct) : data_struct :=
  mk_data (gestureID d) (points d) (event d) v (y d) (version d) (versionInfo d).
Definition set_y (v : Z) (d : data_struct) : data_struct :=
  mk_data (gestureID d) (points d) (event d) (x d) v (version d) (versionInfo d).

Definition with_data {callback} (f : data_struct -> data_struct)
    (o : CST816S callback) : CST816S callback :=
  mk_CST816S (_sda o) (_scl o) (_rst o) (_irq o) (f (data o))
             (_event_available o) (userISR o).
Definition with_event_available {callback} (b : bool)
    (o : CST816S callback) : CST816S callback :=
  mk_CST816S (_sda o) (_scl o) (_rst o) (_irq o) (data o) b (userISR o).
Definition with_userISR {callback} (cb : option callback)
    (o : CST816S callback) : CST816S callback :=
  mk_CST816S (_sda o) (_scl o) (_rst o) (_irq o) (data o)
             (_event_available o) cb.

(** ** Buffers *)

(** The store [p[i] = v] on a buffer held as a list. *)
Definition poke (i : nat) (v : Z) (buf : list Z) : list Z :=
  firstn i buf ++ v :: skipn (S i) buf.

(** A local [byte name[8]] declared without initialiser: eight bytes whose
    values are whatever the stack held, given by [junk]. *)
Definition array8 (junk : list Z) : list Z :=
  map to_uint8 (firstn 8 (junk ++ repeat 0 8)).

(** [((hi & 0xF) << 8) + lo], the coordinate arithmetic of [read_touch]. *)
Definition coordinate (hi lo : Z) : Z := Z.shiftl (Z.land hi 15) 8 + lo.

(** ** What the translation unit takes from outside *)

(** Constants of CST816S.h, which is not part of the sources at hand: the
    chip's bus address and the codes of the gesture enumeration. *)
Class Header : Type := {
  CST816S_ADDRESS : Z;
  NONE : Z;
  SWIPE_DOWN : Z;
  SWIPE_UP : Z;
  SWIPE_LEFT : Z;
  SWIPE_RIGHT : Z;
  SINGLE_CLICK : Z;
  DOUBLE_CLICK : Z;
  LONG_PRESS : Z
}.

(** The labels of the [switch] in [gesture], in source order.  C++ accepts
    the [switch] only if they are pairwise distinct. *)
Definition gesture_codes {header : Header} : list Z :=
  [NONE; SWIPE_DOWN; SWIPE_UP; SWIPE_LEFT; SWIPE_RIGHT;
   SINGLE_CLICK; DOUBLE_CLICK; LONG_PRESS].

(** The platform: the host application's state [U], the function values
    it may register as interrupt callback and what running one does, and
    what the bus answers as a function of the calls made before. *)
Class Platform : Type := {
  U : Type;
  callback : Type;
  invoke : callback -> Sys U callback -> Sys U callback;
  endTransmission_status : list HwCall -> Z;
  read_value : list HwCall -> Z
}.

(** ** The state monad of driver code *)

Section Driver.

Context {header : Header} {platform : Platform}.

Definition State : Type := Sys U callback.
Definition M (A : Type) : Type := State -> A * State.

Definition ret {A} (a : A) : M A := fun s => (a, s).
Definition bind {A B} (m : M A) (k : A -> M B) : M B :=
  fun s => let (a, s') := m s in k a s'.

Notation "v <- m ;; k" := (bind m (fun v => k))
  (at level 100, m at next level, right associativity).
Notation "m ;; k" := (bind m (fun _ => k))
  (at level 100, right associativity).

Definition this : M (CST816S callback) := fun s => (obj s, s).
Definition update (f : CST816S callback -> CST816S callback) : M unit :=
  fun s => (tt, mk_Sys (hw s) (f (obj s)) (host s)).
Definition call (c : HwCall) : M unit :=
  fun s => (tt, mk_Sys (hw s ++ [c]) (obj s) (host s)).

(** *** Platform primitives *)

Definition Wire_beginTransmission (addr : Z) : M unit :=
  call (BeginTransmission addr).
Definition Wire_write (b : Z) : M unit := call (WriteByte b).
Definition Wire_endTransmission (sendStop : bool) : M Z :=
  fun s => (to_uint8 (endTransmission_status (hw s)),
            mk_Sys (hw s ++ [EndTransmission sendStop]) (obj s) (host s)).
Definition Wire_requestFrom (addr : Z) (len : nat) (sendStop : bool)
  : M unit := call (RequestFrom addr len sendStop).
Definition Wire_read : M Z :=
  fun s => (read_value (hw s), mk_Sys (hw s ++ [ReadByte]) (obj s) (host s)).
Definition digitalWrite (pin : Z) (level : PinLevel) : M unit :=
  call (DigitalWrite pin level).
Definition delay (ms : Z) : M unit := call (Delay ms).

(** *** Register transport *)

(** The receive loop of [i2c_read], which stores [Wire.read()] through
    the advancing pointer [reg_data]: [n] iterations left, [i] bytes
    already stored.  Lengths ([size_t]) are counts, held as [nat]. *)
Fixpoint read_loop (n i : nat) (reg_data : list Z) : M (list Z) :=
  match n with
  | O => ret reg_data
  | S k => b <- Wire_read ;;
           read_loop k (S i) (poke i (to_uint8 b) reg_data)
  end.

(** The caller's buffer [reg_data] is passed in and handed back, as the
    loop left it, next to the returned status. *)
Definition i2c_read (addr reg_addr : Z) (reg_data : list Z) (len : nat)
  : M (Z * list Z) :=
  let addr := to_uint16 addr in
  let reg_addr := to_uint8 reg_addr in
  Wire_beginTransmission addr ;;
  Wire_write reg_addr ;;
  st <- Wire_endTransmission true ;;
  if negb (st =? 0) then ret (to_uint8 (-1), reg_data)
  else
    Wire_requestFrom addr len true ;;
    buf <- read_loop len O reg_data ;;
    ret (to_uint8 0, buf).

(** The send loop of [i2c_write], one [Wire.write] per byte the caller's
    pointer designates. *)
Fixpoint write_loop (bytes : list Z) : M unit :=
  match bytes with
  | [] => ret tt
  | b :: r => Wire_write (to_uint8 b) ;; write_loop r
  end.

Definition i2c_write (addr reg_addr : Z) (reg_data : list Z) (len : nat)
  : M Z :=
  let addr := to_uint8 addr in
  let reg_addr := to_uint8 reg_addr in
  Wire_beginTransmission addr ;;
  Wire_write reg_addr ;;
  write_loop (firstn len reg_data) ;;
  st <- Wire_endTransmission true ;;
  if negb (st =? 0) then ret (to_uint8 (-1)) else ret (to_uint8 0).

(** *** Decoding *)

(** [data_raw] is a local array without initialiser; [junk] is what the
    stack holds in its place when the call is entered.  The status that
    [i2c_read] returns is not used. *)
Definition read_touch (junk : list Z) : M unit :=
  let data_raw := array8 junk in
  r <- i2c_read CST816S_ADDRESS 0x01 data_raw 6 ;;
  let data_raw := snd r in
  update (with_data (set_gestureID (nth 0 data_raw 0))) ;;
  update (with_data (set_points (nth 1 data_raw 0))) ;;
  update (with_data (set_event (to_uint8 (Z.shiftr (nth 2 data_raw 0) 6)))) ;;
  update (with_data (set_x (coordinate (nth 2 data_raw 0) (nth 3 data_raw 0)))) ;;
  update (with_data (set_y (coordinate (nth 4 data_raw 0) (nth 5 data_raw 0)))).

(** *** Interrupt bridge *)

Definition handleISR : M unit :=
  update (with_event_available true) ;;
  o <- this ;;
  match userISR o with
  | Some cb => fun s => (tt, invoke cb s)
  | None => ret tt
  end.

Definition attachUserInterrupt (cb : option callback) : M unit :=
  update (with_userISR cb).

(** [junk] is handed on to [read_touch]. *)
Definition available (junk : list Z) : M bool :=
  o <- this ;;
  if _event_available o then
    read_touch junk ;;
    update (with_event_available false) ;;
    ret true
  else ret false.

(** *** Configuration *)

Definition enable_double_click : M unit :=
  let enableDoubleTap := 0x01 in
  i2c_write CST816S_ADDRESS 0xEC [enableDoubleTap] 1 ;; ret tt.

Definition set_motion_mask (mask : Z) : M unit :=
  let mask := to_uint8 mask in
  i2c_write CST816S_ADDRESS 0xEC [mask] 1 ;; ret tt.

Definition set_irq_control (mask : Z) : M unit :=
  let mask := to_uint8 mask in
  i2c_write CST816S_ADDRESS 0xFA [mask] 1 ;; ret tt.

Definition enable_double_click_interrupt_only : M unit :=
  set_motion_mask 0x01 ;;
  set_irq_control 0x10.

Definition disable_auto_sleep : M unit :=
  let disableAutoSleep := 0xFE in
  i2c_write CST816S_ADDRESS 0xFE [disableAutoSleep] 1 ;; ret tt.

Definition enable_auto_sleep : M unit :=
  let enableAutoSleep := 0x00 in
  i2c_write CST816S_ADDRESS 0xFE [enableAutoSleep] 1 ;; ret tt.

Definition set_auto_sleep_time (seconds : Z) : M unit :=
  let seconds :=
    if seconds <? 1 then 1
    else if seconds >? 255 then 255
    else seconds in
  let sleepTime := to_uint8 seconds in
  i2c_write CST816S_ADDRESS 0xF9 [sleepTime] 1 ;; ret tt.

Definition sleep : M unit :=
  o <- this ;;
  digitalWrite (_rst o) LOW ;;
  delay 5 ;;
  digitalWrite (_rst o) HIGH ;;
  delay 50 ;;
  let standby_value := 0x03 in
  i2c_write CST816S_ADDRESS 0xA5 [standby_value] 1 ;; ret tt.

(** *** Gesture names *)

Definition gesture : M string :=
  o <- this ;;
  let g := gestureID (data o) in
  if g =? NONE then ret "NONE"%string
  else if g =? SWIPE_DOWN then ret "SWIPE DOWN"%string
  else if g =? SWIPE_UP then ret "SWIPE UP"%string
  else if g =? SWIPE_LEFT then ret "SWIPE LEFT"%string
  else if g =? SWIPE_RIGHT then ret "SWIPE RIGHT"%string
  else if g =? SINGLE_CLICK then ret "SINGLE CLICK"%string
  else if g =? DOUBLE_CLICK then ret "DOUBLE CLICK"%string
  else if g =? LONG_PRESS then ret "LONG PRESS"%string
  else ret "UNKNOWN"%string.

End Driver.

(** ** Initialisation *)

Definition set_version (v : Z) (d : data_struct) : data_struct :=
  mk_data (gestureID d) (points d) (event d) (x d) (y d) v (versionInfo d).
Definition set_versionInfo (v : list Z) (d : data_struct) : data_struct :=
  mk_data (gestureID d) (points d) (event d) (x d) (y d) (version d) v.

(** What [begin] uses of the Arduino core besides the calls of [HwCall]:
    the two pin-mode constants, and [Wire.begin], [pinMode] and
    [attachInterrupt], which act on the platform's own state.  Each is
    given the calls of [HwCall] made before it, so that its place among
    them is part of what it does.  The handler that [attachInterrupt]
    receives is always [handleISR] of this driver. *)
Class Board {platform : Platform} : Type := {
  INPUT_PULLUP : Z;
  OUTPUT : Z;
  Wire_begin : Z -> Z -> list HwCall -> U -> U;
  pinMode : Z -> Z -> list HwCall -> U -> U;
  attachInterrupt : Z -> Z -> list HwCall -> U -> U
}.

Section Lifecycle.

Context {header : Header} {platform : Platform} {board : Board}.

Notation "v <- m ;; k" := (bind m (fun v => k))
  (at level 100, m at next level, right associativity).
Notation "m ;; k" := (bind m (fun _ => k))
  (at level 100, right associativity).

Definition on_board (f : list HwCall -> U -> U) : M unit :=
  fun s => (tt, mk_Sys (hw s) (obj s) (f (hw s) (host s))).

(** The two reads store through [&data.version] and [data.versionInfo],
    that is, straight into the driver object. *)
Definition begin (interrupt : Z) : M unit :=
  o <- this ;;
  on_board (Wire_begin (_sda o) (_scl o)) ;;
  on_board (pinMode (_irq o) INPUT_PULLUP) ;;
  on_board (pinMode (_rst o) OUTPUT) ;;
  digitalWrite (_rst o) HIGH ;;
  delay 50 ;;
  digitalWrite (_rst o) LOW ;;
  delay 5 ;;
  digitalWrite (_rst o) HIGH ;;
  delay 50 ;;
  o <- this ;;
  r <- i2c_read CST816S_ADDRESS 0x15 [version (data o)] 1 ;;
  update (with_data (set_version (nth 0 (snd r) 0))) ;;
  delay 5 ;;
  o <- this ;;
  r <- i2c_read CST816S_ADDRESS 0xA7 (versionInfo (data o)) 3 ;;
  update (with_data (set_versionInfo (snd r))) ;;
  o <- this ;;
  on_board (attachInterrupt (_irq o) interrupt).

End Lifecycle.

(** ** Sample headers, platforms and states *)

(** A header with the codes of the chip's register documentation. *)
Definition sample_header : Header := {|
  CST816S_ADDRESS := 0x15;
  NONE := 0x00;
  SWIPE_UP := 0x01;
  SWIPE_DOWN := 0x02;
  SWIPE_LEFT := 0x03;
  SWIPE_RIGHT := 0x04;
  SINGLE_CLICK := 0x05;
  DOUBLE_CLICK := 0x0B;
  LONG_PRESS := 0x0C
|}.

(** Number of [Wire.read] calls made so far. *)
Fixpoint reads_made (t : list HwCall) : nat :=
  match t with
  | [] => O
  | ReadByte :: r => S (reads_made r)
  | _ :: r => reads_made r
  end.

(** A host whose callback counts the edges it has seen. *)
Definition count_edge (_ : unit) (s : Sys nat unit) : Sys nat unit :=
  mk_Sys (hw s) (obj s) (S (host s)).

(** A chip that acknowledges every transaction and delivers the bytes of
    [packet] one after the other, then nothing ([Wire.read] gives -1). *)
Definition ack_bus (packet : list Z) : Platform := {|
  U := nat;
  callback := unit;
  invoke := count_edge;
  endTransmission_status := fun _ => 0;
  read_value := fun t => nth (reads_made t) packet (-1)
|}.

(** A chip that does not acknowledge its address: every
    [Wire.endTransmission] reports status 2. *)
Definition nack_bus : Platform := {|
  U := nat;
  callback := unit;
  invoke := count_edge;
  endTransmission_status := fun _ => 2;
  read_value := fun _ => -1
|}.

Definition sample_packet : list Z := [0x0B; 0x01; 0x8F; 0xFF; 0x40; 0x37].

(** Stack contents a poll may find in place of its local buffer. *)
Definition stale_stack : list Z :=
  [0x05; 0x01; 0x80; 0x10; 0x00; 0x20; 0x00; 0x00].

Definition zero_data : data_struct := mk_data 0 0 0 0 0 0 [0; 0; 0].

(** A driver on pins 21, 22, 5 and 4 with a callback attached. *)
Definition sample_driver (pending : bool) (g : Z) : CST816S unit :=
  mk_CST816S 21 22 5 4 (set_gestureID g zero_data) pending (Some tt).

Definition sample_state (pending : bool) (g : Z) : Sys nat unit :=
  mk_Sys [] (sample_driver pending g) O.

(** Calls a board may log for [Wire.begin], [pinMode], [attachInterrupt],
    each with the number of [HwCall]s made before it. *)
Inductive BoardCall : Type :=
| WireBegin (after : nat) (sda scl : Z)
| PinMode (after : nat) (pin mode : Z)
| AttachInterrupt (after : nat) (pin mode : Z).

(** A chip like [ack_bus] on a host that keeps the log of its board calls
    and whose callback does nothing. *)
Definition logging_bus (packet : list Z) : Platform := {|
  U := list BoardCall;
  callback := unit;
  invoke := fun _ s => s;
  endTransmission_status := fun _ => 0;
  read_value := fun t => nth (reads_made t) packet (-1)
|}.

Definition log_Wire_begin (sda scl : Z) (t : list HwCall)
    (log : list BoardCall) : list BoardCall :=
  log ++ [WireBegin (length t) sda scl].
Definition log_pinMode (pin mode : Z) (t : list HwCall)
    (log : list BoardCall) : list BoardCall :=
  log ++ [PinMode (length t) pin mode].
Definition log_attachInterrupt (pin mode : Z) (t : list HwCall)
    (log : list BoardCall) : list BoardCall :=
  log ++ [AttachInterrupt (length t) pin mode].

Definition logging_board (packet : list Z) : @Board (logging_bus packet) :=
  @Build_Board (logging_bus packet) 0x05 0x03
    log_Wire_begin log_pinMode log_attachInterrupt.

(** A chip that acknowledges the first transaction and no later one. *)
Definition first_only_bus : Platform := {|
  U := list BoardCall;
  callback := unit;
  invoke := fun _ s => s;
  endTransmission_status :=
    fun t => if (transactions t <=? 1)%nat then 0 else 2;
  read_value := fun t => nth (reads_made t) [0xB5] (-1)
|}.

Definition first_only_board : @Board first_only_bus :=
  @Build_Board first_only_bus 0x05 0x03
    log_Wire_begin log_pinMode log_attachInterrupt.

(** A driver on pins 21, 22, 5 and 4 whose version fields hold 7 and
    [1; 2; 3], no callback attached. *)
Definition probed_state (pending : bool) : Sys (list BoardCall) unit :=
  mk_Sys [] (mk_CST816S 21 22 5 4 (mk_data 0x05 1 2 100 200 7 [1; 2; 3])
                        pending None) [].

(** ** Specification-side vocabulary *)

(** The bytes the next [n] calls of [Wire.read] deliver when the calls made
    so far are [t], each converted to [uint8_t], in the order received. *)
Definition received {platform : Platform} (t : list HwCall) (n : nat)
  : list Z :=
  map (fun i => to_uint8 (read_value (t ++ repeat ReadByte i))) (seq 0 n).

(** Calls of the address phase of a register read. *)
Definition address_phase {header : Header} (reg : Z) : list HwCall :=
  [BeginTransmission (to_uint16 CST816S_ADDRESS); WriteByte reg].

(** Calls of a one-byte register write. *)
Definition register_write {header : Header} (reg v : Z) : list HwCall :=
  [BeginTransmission (to_uint8 CST816S_ADDRESS); WriteByte reg;
   WriteByte v; EndTransmission true].

(** The clamp of the spec: below 1 gives 1, above 255 gives 255. *)
Definition clamp_1_255 (seconds : Z) : Z := Z.max 1 (Z.min 255 seconds).

(** [n] hardware edges in a row, each running the interrupt handler. *)
Fixpoint edges {platform : Platform} (n : nat) : M unit :=
  match n with
  | O => ret tt
  | S k => bind handleISR (fun _ => edges k)
  end.

(** Successive polls, one per element of [junks] (the stack contents each
    call finds), collecting what [available] returned. *)
Fixpoint polls {header : Header} {platform : Platform}
    (junks : list (list Z)) : M (list bool) :=
  match junks with
  | [] => ret []
  | j :: r => bind (available j) (fun b =>
              bind (polls r) (fun bs => ret (b :: bs)))
  end.

(** The caller contract on interrupt callbacks this development needs: a
    callback does not consume the pending event. *)
Definition callbacks_keep_event {platform : Platform} : Prop :=
  forall (cb : callback) (s : State),
    _event_available (obj s) = true ->
    _event_available (obj (invoke cb s)) = true.

(** Whether the address phase of a read of register [reg] is acknowledged
    when the calls made so far are [t]. *)
Definition read_ok {header : Header} {platform : Platform}
    (t : list HwCall) (reg : Z) : bool :=
  to_uint8 (endTransmission_status (t ++ address_phase reg)) =? 0.

(** Calls of a read of [n] bytes from register [reg], acknowledged or not. *)
Definition register_read {header : Header} (reg : Z) (n : nat) (ok : bool)
  : list HwCall :=
  address_phase reg ++ EndTransmission true ::
  (if ok then RequestFrom (to_uint16 CST816S_ADDRESS) n true
              :: repeat ReadByte n
   else []).

(** The bytes an acknowledged read of [n] bytes from [reg] receives. *)
Definition read_bytes {header : Header} {platform : Platform}
    (t : list HwCall) (reg : Z) (n : nat) : list Z :=
  received (t ++ address_phase reg ++
            [EndTransmission true;
             RequestFrom (to_uint16 CST816S_ADDRESS) n true]) n.

(** The reset pulse of [begin] on pin [rst]. *)
Definition reset_sequence (rst : Z) : list HwCall :=
  [DigitalWrite rst HIGH; Delay 50; DigitalWrite rst LOW; Delay 5;
   DigitalWrite rst HIGH; Delay 50].

(** Values a [uint8_t] can hold. *)
Definition is_byte (v : Z) : Prop := 0 <= v < 256.

(** Read calls in a run of calls. *)
Fixpoint read_calls (t : list HwCall) : nat :=
  match t with
  | [] => O
  | RequestFrom _ _ _ :: r => S (read_calls r)
  | ReadByte :: r => S (read_calls r)
  | _ :: r => read_calls r
  end.

(** The label [gesture] gives to each code of the header, in the order of
    [gesture_codes]. *)
Definition gesture_labels : list string :=
  ["NONE"; "SWIPE DOWN"; "SWIPE UP"; "SWIPE LEFT"; "SWIPE RIGHT";
   "SINGLE CLICK"; "DOUBLE CLICK"; "LONG PRESS"]%string.

(** ** Arithmetic of bytes and coordinates *)

Lemma to_uint8_range (v : Z) : 0 <= to_uint8 v < 256.
Proof. unfold to_uint8. apply Z.mod_pos_bound. lia. Qed.

Lemma to_uint8_small (v : Z) : 0 <= v < 256 -> to_uint8 v = v.
Proof. intros H. unfold to_uint8. apply Z.mod_small. exact H. Qed.

Lemma low_nibble_range (b : Z) : 0 <= Z.land b 15 <= 15.
Proof.
  change 15 with (Z.ones 4) at 1 2.
  rewrite Z.land_ones by lia.
  pose proof (Z.mod_pos_bound b (2 ^ 4)) as H.
  change (2 ^ 4) with 16 in *. change (Z.ones 4) with 15. lia.
Qed.

Lemma coordinate_range (hi lo : Z) :
  0 <= lo < 256 -> 0 <= coordinate hi lo <= 4095.
Proof.
  intros Hlo. unfold coordinate.
  rewrite Z.shiftl_mul_pow2 by lia.
  pose proof (low_nibble_range hi) as H.
  change (2 ^ 8) with 256. lia.
Qed.

Lemma clamp_cases (seconds : Z) :
  (if seconds <? 1 then 1 else if seconds >? 255 then 255 else seconds)
  = clamp_1_255 seconds.
Proof.
  unfold clamp_1_255.
  destruct (Z.ltb_spec seconds 1); [lia|].
  rewrite Z.gtb_ltb. destruct (Z.ltb_spec 255 seconds); lia.
Qed.

Lemma clamp_range (seconds : Z) : 1 <= clamp_1_255 seconds <= 255.
Proof. unfold clamp_1_255. lia. Qed.

(** ** How the transport helpers run *)

Section Transport.

Context {header : Header} {platform : Platform}.

Lemma received_length (t : list HwCall) (n : nat) :
  length (received t n) = n.
Proof. unfold received. rewrite length_map, length_seq. reflexivity. Qed.

Lemma received_succ (t : list HwCall) (n : nat) :
  received t (S n)
  = to_uint8 (read_value t) :: received (t ++ [ReadByte]) n.
Proof.
  unfold received. cbn [seq map repeat]. rewrite app_nil_r. f_equal.
  rewrite <- seq_shift, map_map. apply map_ext. intros i.
  rewrite <- app_assoc. reflexivity.
Qed.

Lemma received_nth (t : list HwCall) (n i : nat) :
  (i < n)%nat ->
  nth i (received t n) 0 = to_uint8 (read_value (t ++ repeat ReadByte i)).
Proof.
  intros Hi. unfold received.
  rewrite (nth_indep _ 0 (to_uint8 (read_value (t ++ repeat ReadByte O))))
    by (rewrite length_map, length_seq; exact Hi).
  rewrite (map_nth (fun j => to_uint8 (read_value (t ++ repeat ReadByte j)))).
  rewrite seq_nth by exact Hi. reflexivity.
Qed.

Lemma read_loop_run (n : nat) :
  forall (i : nat) (buf : list Z) (t : list HwCall) o h,
    (i <= length buf)%nat ->
    read_loop n i buf (mk_Sys t o h)
    = (firstn i buf ++ received t n ++ skipn (i + n) buf,
       mk_Sys (t ++ repeat ReadByte n) o h).
Proof.
  induction n as [|k IH]; intros i buf t o h Hi.
  - cbn. rewrite Nat.add_0_r, firstn_skipn, app_nil_r. reflexivity.
  - cbn [read_loop]. unfold bind, Wire_read. cbn [hw obj host].
    rewrite IH.
    + rewrite received_succ. cbn [repeat].
      unfold poke.
      rewrite firstn_app, firstn_firstn, Nat.min_r by lia.
      rewrite length_firstn, Nat.min_l by lia.
      replace (S i - i)%nat with 1%nat by lia. cbn [firstn].
      rewrite skipn_app, length_firstn, Nat.min_l by lia.
      rewrite (skipn_all2 (firstn i buf)) by (rewrite length_firstn; lia).
      replace (S i + k - i)%nat with (S k) by lia.
      rewrite skipn_cons, skipn_skipn. cbn [app].
      replace (k + S i)%nat with (i + S k)%nat by lia.
      rewrite <- !app_assoc. cbn [app].
      replace (t ++ ReadByte :: repeat ReadByte k)
        with ((t ++ [ReadByte]) ++ repeat ReadByte k)
        by (rewrite <- app_assoc; reflexivity).
      reflexivity.
    + unfold poke. rewrite length_app, length_firstn. cbn [length]. lia.
Qed.

Lemma write_loop_run (bytes : list Z) :
  forall (t : list HwCall) o h,
    write_loop bytes (mk_Sys t o h)
    = (tt, mk_Sys (t ++ map (fun b => WriteByte (to_uint8 b)) bytes) o h).
Proof.
  induction bytes as [|b r IH]; intros t o h.
  - cbn. rewrite app_nil_r. reflexivity.
  - cbn [write_loop map]. unfold bind, Wire_write, call. cbn [hw obj host].
    rewrite IH, <- app_assoc. reflexivity.
Qed.

(** [i2c_read] in one step: the address phase, then either the failure
    exit or the request and the receive loop. *)
Lemma i2c_read_run (addr reg : Z) (buf : list Z) (n : nat) (s : State) :
  let t1 := hw s ++ [BeginTransmission (to_uint16 addr);
                     WriteByte (to_uint8 reg)] in
  let t2 := t1 ++ [EndTransmission true;
                   RequestFrom (to_uint16 addr) n true] in
  i2c_read addr reg buf n s
  = if to_uint8 (endTransmission_status t1) =? 0
    then ((0, received t2 n ++ skipn n buf),
          mk_Sys (t2 ++ repeat ReadByte n) (obj s) (host s))
    else ((255, buf),
          mk_Sys (t1 ++ [EndTransmission true]) (obj s) (host s)).
Proof.
  intros t1 t2. unfold i2c_read, bind, Wire_beginTransmission, Wire_write,
    Wire_endTransmission, Wire_requestFrom, call, ret.
  cbn [hw obj host]. rewrite <- !app_assoc. cbn [app].
  fold t1.
  destruct (to_uint8 (endTransmission_status t1) =? 0); cbn [negb].
  - cbn [hw obj host]. rewrite read_loop_run by (cbn; lia).
    cbn [firstn Nat.add]. change (to_uint8 0) with 0.
    subst t2 t1. rewrite <- !app_assoc. cbn [app]. reflexivity.
  - change (to_uint8 (-1)) with 255.
    subst t1. rewrite <- !app_assoc. reflexivity.
Qed.

(** [i2c_write] in one step. *)
Lemma i2c_write_run (addr reg : Z) (bytes : list Z) (n : nat) (s : State) :
  let t := hw s ++ BeginTransmission (to_uint8 addr)
                :: WriteByte (to_uint8 reg)
                :: map (fun b => WriteByte (to_uint8 b)) (firstn n bytes) in
  i2c_write addr reg bytes n s
  = (if to_uint8 (endTransmission_status t) =? 0 then 0 else 255,
     mk_Sys (t ++ [EndTransmission true]) (obj s) (host s)).
Proof.
  intros t. unfold i2c_write, bind, Wire_beginTransmission, Wire_write,
    Wire_endTransmission, call, ret.
  cbn [hw obj host]. rewrite write_loop_run. cbn [hw obj host].
  rewrite <- !app_assoc. cbn [app]. fold t.
  destruct (to_uint8 (endTransmission_status t) =? 0); cbn [negb];
    subst t; rewrite <- ?app_assoc; reflexivity.
Qed.

End Transport.

(** ** Properties of the driver *)

Section Properties.

Context {header : Header} {platform : Platform}.

(** How [read_touch] runs, whatever the transport reports: the five
    fields are assigned from the local buffer as [i2c_read] leaves it. *)
Lemma read_touch_run (junk : list Z) (s : State) :
  let r := i2c_read CST816S_ADDRESS 0x01 (array8 junk) 6 s in
  let raw := snd (fst r) in
  read_touch junk s
  = (tt, mk_Sys (hw (snd r))
           (with_data (fun d =>
              mk_data (nth 0 raw 0) (nth 1 raw 0)
                      (to_uint8 (Z.shiftr (nth 2 raw 0) 6))
                      (coordinate (nth 2 raw 0) (nth 3 raw 0))
                      (coordinate (nth 4 raw 0) (nth 5 raw 0))
                      (version d) (versionInfo d))
              (obj (snd r)))
           (host (snd r))).
Proof.
  intros r raw. unfold read_touch, bind. fold r.
  destruct r as [[st buf] s']. subst raw. reflexivity.
Qed.

(** The flag after a burst of edges, under the callback contract. *)
Lemma edges_pending (n : nat) :
  callbacks_keep_event ->
  forall s : State, _event_available (obj (snd (edges (S n) s))) = true.
Proof.
  intros Hcb. induction n as [|k IH]; intros s.
  - cbn [edges]. unfold bind, handleISR, update, this, ret, bind.
    cbn [obj hw host]. destruct (userISR _); cbn [snd].
    + apply Hcb. reflexivity.
    + reflexivity.
  - change (edges (S (S k))) with (bind handleISR (fun _ => edges (S k))).
    unfold bind at 1. destruct (handleISR s) as [u s']. apply IH.
Qed.

Lemma available_idle_run (junk : list Z) (s : State) :
  _event_available (obj s) = false -> available junk s = (false, s).
Proof.
  intros H. unfold available, bind, this. rewrite H. reflexivity.
Qed.

Lemma polls_idle (junks : list (list Z)) (s : State) :
  _event_available (obj s) = false ->
  polls junks s = (repeat false (length junks), s).
Proof.
  intros H. induction junks as [|j r IH].
  - reflexivity.
  - cbn [polls]. unfold bind at 1. rewrite available_idle_run by exact H.
    unfold bind at 1. rewrite IH. reflexivity.
Qed.

(** A pending poll: one register read, the decoded fields, flag cleared. *)
Lemma available_pending_run (junk : list Z) (s : State) :
  _event_available (obj s) = true ->
  available junk s
  = (true, let s' := snd (read_touch junk s) in
           mk_Sys (hw s') (with_event_available false (obj s')) (host s')).
Proof.
  intros H. unfold available, bind, this. rewrite H.
  destruct (read_touch junk s) as [u s']. reflexivity.
Qed.

(** *** Register transport *)

(** C9: [i2c_read] reports failure exactly when the address-write phase
    ends with a nonzero status; it then leaves the caller's buffer as it
    was and makes no read call.  When the address write succeeds it makes
    exactly [n] read calls and stores the [n] bytes received, in the order
    received, at the start of the buffer, the rest of which is unchanged. *)
Theorem i2c_read_all_or_nothing
    (addr reg : Z) (buf : list Z) (n : nat) (s : State) :
  let t1 := hw s ++ [BeginTransmission (to_uint16 addr);
                     WriteByte (to_uint8 reg)] in
  let t2 := t1 ++ [EndTransmission true;
                   RequestFrom (to_uint16 addr) n true] in
  let status := to_uint8 (endTransmission_status t1) in
  let r := i2c_read addr reg buf n s in
  (fst (fst r) <> 0 <-> status <> 0) /\
  (if status =? 0
   then snd (fst r) = received t2 n ++ skipn n buf /\
        length (received t2 n) = n /\
        firstn n (snd (fst r)) = received t2 n /\
        hw (snd r) = t2 ++ repeat ReadByte n
   else snd (fst r) = buf /\
        hw (snd r) = t1 ++ [EndTransmission true]).
Proof.
  intros t1 t2 status r. subst r. rewrite i2c_read_run.
  fold t1 t2 status.
  destruct (Z.eqb_spec status 0) as [E|E]; cbn [fst snd hw].
  - split; [split; intros H; congruence|].
    repeat split.
    + apply received_length.
    + rewrite firstn_app, received_length, Nat.sub_diag, firstn_O, app_nil_r.
      apply firstn_all2. rewrite received_length. lia.
  - split; [split; intros H; [exact E | lia]|].
    split; reflexivity.
Qed.

(** C10: [i2c_read] and [i2c_write] return the byte 0 when the
    transaction's [endTransmission] reports status 0 and the byte 255,
    which is -1 converted to [uint8_t], otherwise; no other value is
    returned, so the result is nonzero exactly on failure. *)
Theorem i2c_result_zero_or_255
    (addr reg : Z) (buf bytes : list Z) (n : nat) (s : State) :
  let rd_status :=
    to_uint8 (endTransmission_status
                (hw s ++ [BeginTransmission (to_uint16 addr);
                          WriteByte (to_uint8 reg)])) in
  let wr_status :=
    to_uint8 (endTransmission_status
                (hw s ++ BeginTransmission (to_uint8 addr)
                      :: WriteByte (to_uint8 reg)
                      :: map (fun b => WriteByte (to_uint8 b))
                             (firstn n bytes))) in
  let rd := fst (fst (i2c_read addr reg buf n s)) in
  let wr := fst (i2c_write addr reg bytes n s) in
  to_uint8 (-1) = 255 /\
  rd = (if rd_status =? 0 then 0 else 255) /\
  wr = (if wr_status =? 0 then 0 else 255) /\
  (rd <> 0 <-> rd_status <> 0) /\
  (wr <> 0 <-> wr_status <> 0).
Proof.
  intros rd_status wr_status rd wr. subst rd wr.
  rewrite i2c_read_run, i2c_write_run. fold rd_status wr_status.
  split; [reflexivity|].
  destruct (Z.eqb_spec rd_status 0) as [Er|Er];
    destruct (Z.eqb_spec wr_status 0) as [Ew|Ew]; cbn [fst];
    repeat split; intros; congruence || lia.
Qed.

(** *** Decoding *)

(** C2: when the read of register 0x01 succeeds, [read_touch] stores
    x = ((byte2 & 0xF) << 8) + byte3 and y = ((byte4 & 0xF) << 8) + byte5
    of the six bytes received, and both lie in [0, 4095]. *)
Theorem read_touch_coordinates (junk : list Z) (s : State) :
  let t1 := hw s ++ address_phase 0x01 in
  to_uint8 (endTransmission_status t1) = 0 ->
  let packet :=
    received (t1 ++ [EndTransmission true;
                     RequestFrom (to_uint16 CST816S_ADDRESS) 6 true]) 6 in
  let d := data (obj (snd (read_touch junk s))) in
  x d = Z.shiftl (Z.land (nth 2 packet 0) 0xF) 8 + nth 3 packet 0 /\
  y d = Z.shiftl (Z.land (nth 4 packet 0) 0xF) 8 + nth 5 packet 0 /\
  0 <= x d <= 4095 /\ 0 <= y d <= 4095.
Proof.
  intros t1 Hok packet d. subst d.
  rewrite read_touch_run. cbn zeta. rewrite i2c_read_run.
  change (to_uint8 1) with 1. unfold address_phase in t1. fold t1.
  rewrite Hok. cbn [Z.eqb fst snd obj data with_data x y]. fold packet.
  assert (Hn : forall i, (i < 6)%nat ->
            nth i (packet ++ skipn 6 (array8 junk)) 0 = nth i packet 0).
  { intros i Hi. apply app_nth1. unfold packet.
    rewrite received_length. exact Hi. }
  rewrite !Hn by lia. unfold coordinate.
  assert (Hb : forall i, (i < 6)%nat -> 0 <= nth i packet 0 < 256).
  { intros i Hi. unfold packet. rewrite received_nth by exact Hi.
    apply to_uint8_range. }
  repeat split; try reflexivity;
    try (apply (coordinate_range _ _ (Hb 3%nat ltac:(lia))));
    try (apply (coordinate_range _ _ (Hb 5%nat ltac:(lia)))).
Qed.

(** *** Interrupt bridge *)

(** C4: with the pending flag unset, [available] returns false, makes no
    call on the bus or any other hardware, and leaves the driver object
    (touch event and flag) as it was. *)
Theorem available_idle (junk : list Z) (s : State) :
  _event_available (obj s) = false ->
  available junk s = (false, s).
Proof.
  intros Hidle. unfold available, bind, this.
  rewrite Hidle. unfold ret. reflexivity.
Qed.

(** C3: after one or more edges the next poll returns true and makes the
    calls of exactly one register-read transaction; every poll after it
    returns false and changes nothing, until the handler runs again. *)
Theorem available_once_per_burst
    (n : nat) (junk : list Z) (junks : list (list Z)) (s : State) :
  callbacks_keep_event ->
  let s1 := snd (edges (S n) s) in
  let r := available junk s1 in
  let t1 := hw s1 ++ address_phase 0x01 in
  let added :=
    address_phase 0x01 ++ EndTransmission true ::
    (if to_uint8 (endTransmission_status t1) =? 0
     then RequestFrom (to_uint16 CST816S_ADDRESS) 6 true
            :: repeat ReadByte 6
     else []) in
  fst r = true /\
  hw (snd r) = hw s1 ++ added /\
  transactions added = 1%nat /\
  _event_available (obj (snd r)) = false /\
  polls junks (snd r) = (repeat false (length junks), snd r).
Proof.
  intros Hcb s1 r t1 added.
  pose proof (edges_pending n Hcb s) as Hp. fold s1 in Hp.
  subst r. rewrite available_pending_run by exact Hp.
  cbn [fst snd].
  assert (Hflag : _event_available
            (obj (let s' := snd (read_touch junk s1) in
                  mk_Sys (hw s') (with_event_available false (obj s'))
                         (host s'))) = false) by reflexivity.
  split; [reflexivity|]. split; [|split; [|split]].
  - cbn zeta. cbn [hw]. rewrite read_touch_run. cbn zeta. cbn [snd hw].
    rewrite i2c_read_run. change (to_uint8 1) with 1.
    subst added t1. unfold address_phase.
    destruct (to_uint8 (endTransmission_status _) =? 0);
      cbn [snd hw]; rewrite <- !app_assoc; reflexivity.
  - subst added. unfold address_phase.
    destruct (to_uint8 (endTransmission_status t1) =? 0); reflexivity.
  - exact Hflag.
  - apply polls_idle. exact Hflag.
Qed.

(** *** Configuration *)

(** A one-byte register write, whatever its status, as a caller that
    drops the status sees it. *)
Lemma write_register_run (reg v : Z) (s : State) :
  0 <= reg < 256 -> 0 <= v < 256 ->
  snd (i2c_write CST816S_ADDRESS reg [v] 1 s)
  = mk_Sys (hw s ++ register_write reg v) (obj s) (host s).
Proof.
  intros Hreg Hv. rewrite i2c_write_run. cbn [snd firstn map].
  rewrite (to_uint8_small reg), (to_uint8_small v) by assumption.
  unfold register_write. rewrite <- app_assoc. reflexivity.
Qed.

Lemma drop_status {A} (m : M A) (s : State) :
  bind m (fun _ => ret tt) s = (tt, snd (m s)).
Proof. unfold bind, ret. destruct (m s). reflexivity. Qed.

(** C5: for every integer [seconds], [set_auto_sleep_time] makes exactly
    the calls of one single-byte write to register 0xF9, and the byte is
    [seconds] clamped to [1, 255]. *)
Theorem set_auto_sleep_time_clamps (seconds : Z) (s : State) :
  set_auto_sleep_time seconds s
  = (tt, mk_Sys (hw s ++ register_write 0xF9 (clamp_1_255 seconds))
                (obj s) (host s)) /\
  1 <= clamp_1_255 seconds <= 255 /\
  clamp_1_255 0 = 1 /\ clamp_1_255 1 = 1 /\ clamp_1_255 (-5) = 1 /\
  clamp_1_255 255 = 255 /\ clamp_1_255 300 = 255 /\ clamp_1_255 100 = 100.
Proof.
  pose proof (clamp_range seconds) as Hr.
  split; [|repeat split; try reflexivity; lia].
  unfold set_auto_sleep_time. cbn zeta. rewrite clamp_cases.
  rewrite drop_status, (to_uint8_small (clamp_1_255 seconds)) by lia.
  rewrite write_register_run by lia. reflexivity.
Qed.

(** C7: [enable_double_click_interrupt_only] makes exactly the calls of
    two single-byte register writes, 0x01 to register 0xEC and then 0x10
    to register 0xFA, and nothing else; the driver object is unchanged. *)
Theorem enable_double_click_interrupt_only_writes (s : State) :
  enable_double_click_interrupt_only s
  = (tt, mk_Sys (hw s ++ register_write 0xEC 0x01 ++ register_write 0xFA 0x10)
                (obj s) (host s)).
Proof.
  unfold enable_double_click_interrupt_only, set_motion_mask,
    set_irq_control. cbn zeta.
  change (to_uint8 1) with 1. change (to_uint8 16) with 16.
  unfold bind at 1. rewrite drop_status, write_register_run by lia.
  rewrite drop_status, write_register_run by lia.
  cbn [hw obj host]. rewrite <- app_assoc. reflexivity.
Qed.

(** C6, as the code has it: every configuration operation is [void].  It
    performs the register write(s) through [i2c_write] and drops the
    status byte [i2c_write] returns, so its caller receives no result. *)
Theorem configuration_drops_status (mask seconds : Z) (s : State) :
  set_motion_mask mask s
  = (tt, snd (i2c_write CST816S_ADDRESS 0xEC [to_uint8 mask] 1 s)) /\
  set_irq_control mask s
  = (tt, snd (i2c_write CST816S_ADDRESS 0xFA [to_uint8 mask] 1 s)) /\
  enable_double_click s
  = (tt, snd (i2c_write CST816S_ADDRESS 0xEC [0x01] 1 s)) /\
  enable_double_click_interrupt_only s
  = (tt, snd (i2c_write CST816S_ADDRESS 0xFA [0x10] 1
                (snd (i2c_write CST816S_ADDRESS 0xEC [0x01] 1 s)))) /\
  disable_auto_sleep s
  = (tt, snd (i2c_write CST816S_ADDRESS 0xFE [0xFE] 1 s)) /\
  enable_auto_sleep s
  = (tt, snd (i2c_write CST816S_ADDRESS 0xFE [0x00] 1 s)) /\
  set_auto_sleep_time seconds s
  = (tt, snd (i2c_write CST816S_ADDRESS 0xF9 [clamp_1_255 seconds] 1 s)) /\
  sleep s
  = (tt, snd (i2c_write CST816S_ADDRESS 0xA5 [0x03] 1
                (mk_Sys (hw s ++ [DigitalWrite (_rst (obj s)) LOW; Delay 5;
                                  DigitalWrite (_rst (obj s)) HIGH; Delay 50])
                        (obj s) (host s)))).
Proof.
  repeat split.
  - apply drop_status.
  - apply drop_status.
  - apply drop_status.
  - unfold enable_double_click_interrupt_only, set_motion_mask,
      set_irq_control. cbn zeta.
    unfold bind at 1. rewrite !drop_status. reflexivity.
  - apply drop_status.
  - apply drop_status.
  - unfold set_auto_sleep_time. cbn zeta. rewrite clamp_cases.
    rewrite (to_uint8_small (clamp_1_255 seconds))
      by (pose proof (clamp_range seconds); lia).
    apply drop_status.
  - unfold sleep. unfold bind at 1 2 3 4 5, this, digitalWrite, delay, call.
    cbn [hw obj host]. cbn zeta. rewrite drop_status.
    rewrite <- !app_assoc. reflexivity.
Qed.

(** *** Gesture names *)

(** C8: [gesture] reads the stored gesture byte and changes nothing: no
    hardware call, no change of the driver object.  It returns
    "DOUBLE CLICK" when the byte is the double-click code and "UNKNOWN"
    when the byte is none of the eight defined codes. *)
Theorem gesture_lookup (s : State) :
  NoDup gesture_codes ->
  snd (gesture s) = s /\
  (gestureID (data (obj s)) = DOUBLE_CLICK ->
   fst (gesture s) = "DOUBLE CLICK"%string) /\
  (~ In (gestureID (data (obj s))) gesture_codes ->
   fst (gesture s) = "UNKNOWN"%string).
Proof.
  intros Hnd. unfold gesture, bind, this, ret. cbn zeta.
  split; [|split].
  - repeat (destruct (_ =? _); [reflexivity|]). reflexivity.
  - intros E. rewrite E.
    unfold gesture_codes in Hnd.
    repeat match goal with
           | H : NoDup (_ :: _) |- _ => inversion H; subst; clear H
           end.
    repeat match goal with
           | H : ~ In _ _ |- _ => cbn [In] in H
           end.
    repeat match goal with
           | |- context [DOUBLE_CLICK =? ?c] =>
               destruct (Z.eqb_spec DOUBLE_CLICK c) as [E'|E'];
               [exfalso; intuition congruence|]; clear E'
           end.
    rewrite Z.eqb_refl. reflexivity.
  - intros Hout. unfold gesture_codes in Hout. cbn [In] in Hout.
    repeat match goal with
           | |- context [gestureID (data (obj s)) =? ?c] =>
               destruct (Z.eqb_spec (gestureID (data (obj s))) c) as [E'|E'];
               [exfalso; intuition congruence|]; clear E'
           end.
    reflexivity.
Qed.

End Properties.

(** ** The properties at work on the sample platforms *)

(** C1: the code breaks the claim.  The chip does not acknowledge its
    address (status 2), so [i2c_read] returns 255 and writes nothing into
    the buffer; [read_touch] drops that result and decodes its local
    buffer, which nothing has initialised.  The driver held a double-click
    event with all other fields zero.  The poll returns true and clears
    the flag, and the five fields it leaves are whatever the stack held:
    two stack contents give two events, and the event held before is
    lost. *)
Lemma failed_read_overwrites_touch_event :
  let s := sample_state true 0x0B in
  let poll junk := @available sample_header nack_bus junk s in
  to_uint8 (@endTransmission_status nack_bus
              (hw s ++ @address_phase sample_header 0x01)) = 2 /\
  fst (@i2c_read nack_bus 0x15 0x01 (array8 stale_stack) 6 s)
  = (255, array8 stale_stack) /\
  data (obj s) = mk_data 0x0B 0 0 0 0 0 [0; 0; 0] /\
  fst (poll stale_stack) = true /\
  _event_available (obj (snd (poll stale_stack))) = false /\
  data (obj (snd (poll stale_stack)))
  = mk_data 0x05 0x01 2 0x10 0x20 0 [0; 0; 0] /\
  data (obj (snd (poll (repeat 0xFF 8))))
  = mk_data 255 255 3 4095 4095 0 [0; 0; 0] /\
  data (obj (snd (poll stale_stack))) <> data (obj s).
Proof.
  cbv zeta. repeat split; try (vm_compute; reflexivity).
  vm_compute. discriminate.
Qed.

Lemma read_touch_coordinates_witness :
  let s := sample_state true 0 in
  let d := data (obj (snd (@read_touch sample_header (ack_bus sample_packet)
                             stale_stack s))) in
  to_uint8 (@endTransmission_status (ack_bus sample_packet)
              (hw s ++ @address_phase sample_header 0x01)) = 0 /\
  x d = 0xFFF /\ y d = 0x037 /\ 0 <= x d <= 4095 /\ 0 <= y d <= 4095.
Proof.
  intros s d.
  assert (Hok : to_uint8 (@endTransmission_status (ack_bus sample_packet)
                  (hw s ++ @address_phase sample_header 0x01)) = 0)
    by reflexivity.
  destruct (@read_touch_coordinates sample_header (ack_bus sample_packet)
              stale_stack s Hok) as (Hx & Hy & Hrx & Hry).
  split; [exact Hok|]. subst d.
  split; [rewrite Hx; reflexivity|].
  split; [rewrite Hy; reflexivity|].
  split; [exact Hrx | exact Hry].
Defined.

Lemma available_idle_witness :
  let s := sample_state false 0x0B in
  _event_available (obj s) = false /\
  @available sample_header nack_bus stale_stack s = (false, s).
Proof.
  intros s. split; [reflexivity|].
  apply (@available_idle sample_header nack_bus). reflexivity.
Defined.

Lemma available_once_per_burst_witness :
  let P := ack_bus sample_packet in
  let s1 := snd (@edges P 3 (sample_state false 0)) in
  let r := @available sample_header P stale_stack s1 in
  @callbacks_keep_event P /\
  host s1 = 3%nat /\
  fst r = true /\
  hw (snd r) = [BeginTransmission 0x15; WriteByte 0x01; EndTransmission true;
                RequestFrom 0x15 6 true; ReadByte; ReadByte; ReadByte;
                ReadByte; ReadByte; ReadByte] /\
  gestureID (data (obj (snd r))) = 0x0B /\
  @polls sample_header P [stale_stack; []; stale_stack] (snd r)
  = ([false; false; false], snd r).
Proof.
  intros P s1 r.
  assert (Hcb : @callbacks_keep_event P) by (intros cb s H; exact H).
  destruct (@available_once_per_burst sample_header P 2 stale_stack
              [stale_stack; []; stale_stack] (sample_state false 0) Hcb)
    as (Ht & Hhw & _ & _ & Hpolls).
  split; [exact Hcb|]. split; [reflexivity|]. split; [exact Ht|].
  split; [subst r s1; rewrite Hhw; reflexivity|].
  split; [reflexivity | exact Hpolls].
Defined.

(** C6 fails as stated: one write is acknowledged and one is not, the status
    of [i2c_write] tells them apart, and [set_motion_mask] hands its caller
    the same (empty) result in both. *)
Lemma set_motion_mask_hides_transport_result :
  let s := sample_state false 0 in
  fst (@i2c_write (ack_bus []) 0x15 0xEC [0x01] 1 s) = 0 /\
  fst (@i2c_write nack_bus 0x15 0xEC [0x01] 1 s) = 255 /\
  fst (@set_motion_mask sample_header (ack_bus []) 0x01 s)
  = fst (@set_motion_mask sample_header nack_bus 0x01 s) /\
  ~ (exists f : unit -> Z,
       f (fst (@set_motion_mask sample_header (ack_bus []) 0x01 s))
       = fst (@i2c_write (ack_bus []) 0x15 0xEC [0x01] 1 s) /\
       f (fst (@set_motion_mask sample_header nack_bus 0x01 s))
       = fst (@i2c_write nack_bus 0x15 0xEC [0x01] 1 s)).
Proof.
  cbv zeta. repeat split; try reflexivity.
  intros [f [Ha Hn]]. vm_compute in Ha, Hn. congruence.
Qed.

Lemma gesture_lookup_witness :
  let dc := sample_state false 0x0B in
  let ff := sample_state false 0xFF in
  NoDup (@gesture_codes sample_header) /\
  @gesture sample_header nack_bus dc = ("DOUBLE CLICK"%string, dc) /\
  @gesture sample_header nack_bus ff = ("UNKNOWN"%string, ff).
Proof.
  intros dc ff.
  assert (Hnd : NoDup (@gesture_codes sample_header)).
  { unfold gesture_codes.
    repeat (constructor; [cbn; intuition discriminate|]). constructor. }
  destruct (@gesture_lookup sample_header nack_bus dc Hnd) as (Hs & Hdc & _).
  destruct (@gesture_lookup sample_header nack_bus ff Hnd) as (Hs' & _ & Hff).
  split; [exact Hnd|]. split.
  - rewrite (surjective_pairing (@gesture sample_header nack_bus dc)).
    rewrite Hs, (Hdc eq_refl). reflexivity.
  - rewrite (surjective_pairing (@gesture sample_header nack_bus ff)).
    rewrite Hs', Hff; [reflexivity|]. cbn. intuition discriminate.
Defined.

(** ** Further properties: transport *)

Section TransportFacts.

Context {header : Header} {platform : Platform}.

Lemma is_byte_to_uint8 (v : Z) : is_byte (to_uint8 v).
Proof. apply to_uint8_range. Qed.

Lemma transactions_app (a b : list HwCall) :
  transactions (a ++ b) = (transactions a + transactions b)%nat.
Proof.
  induction a as [|c a IH]; [reflexivity|].
  destruct c; cbn [app transactions]; rewrite IH; reflexivity.
Qed.

Lemma read_calls_app (a b : list HwCall) :
  read_calls (a ++ b) = (read_calls a + read_calls b)%nat.
Proof.
  induction a as [|c a IH]; [reflexivity|].
  destruct c; cbn [app read_calls]; rewrite IH; reflexivity.
Qed.

Lemma payload_calls (bytes : list Z) :
  transactions (map WriteByte bytes) = O /\ read_calls (map WriteByte bytes) = O.
Proof. induction bytes as [|b r [IHt IHr]]; split; cbn; auto. Qed.

Lemma reads_calls (n : nat) :
  transactions (repeat ReadByte n) = O /\ read_calls (repeat ReadByte n) = n.
Proof. induction n as [|k [IHt IHr]]; split; cbn; auto. Qed.

Lemma received_bytes (t : list HwCall) (n : nat) :
  Forall is_byte (received t n).
Proof.
  unfold received. apply Forall_forall. intros v Hv.
  apply in_map_iff in Hv. destruct Hv as [i [<- _]]. apply is_byte_to_uint8.
Qed.

Lemma array8_bytes (junk : list Z) : Forall is_byte (array8 junk).
Proof.
  unfold array8. apply Forall_forall. intros v Hv.
  apply in_map_iff in Hv. destruct Hv as [w [<- _]]. apply is_byte_to_uint8.
Qed.

Lemma nth_byte (l : list Z) (i : nat) : Forall is_byte l -> is_byte (nth i l 0).
Proof.
  intros Hl. destruct (Nat.lt_ge_cases i (length l)) as [H|H].
  - rewrite Forall_forall in Hl. apply Hl, nth_In, H.
  - rewrite nth_overflow by exact H. unfold is_byte. lia.
Qed.

(** A read of a register of the chip, in the vocabulary above. *)
Lemma register_read_run (reg : Z) (buf : list Z) (n : nat) (s : State) :
  0 <= reg < 256 ->
  i2c_read CST816S_ADDRESS reg buf n s
  = ((if read_ok (hw s) reg then 0 else 255,
      if read_ok (hw s) reg
      then read_bytes (hw s) reg n ++ skipn n buf else buf),
     mk_Sys (hw s ++ register_read reg n (read_ok (hw s) reg))
            (obj s) (host s)).
Proof.
  intros Hreg. rewrite i2c_read_run. rewrite (to_uint8_small reg) by exact Hreg.
  unfold read_ok, read_bytes, register_read, address_phase.
  destruct (to_uint8 (endTransmission_status _) =? 0);
    rewrite <- ?app_assoc; reflexivity.
Qed.

(** X1: whatever the arguments and whatever the bus answers, [i2c_write]
    makes the calls of one transaction: the address truncated to 8 bits,
    the register, the first [n] payload bytes in order, the stop.  It makes
    no read call and leaves the driver object and the host alone. *)
Theorem i2c_write_one_transaction
    (addr reg : Z) (bytes : list Z) (n : nat) (s : State) :
  let payload := map to_uint8 (firstn n bytes) in
  let added := BeginTransmission (to_uint8 addr) :: WriteByte (to_uint8 reg)
               :: map WriteByte payload ++ [EndTransmission true] in
  snd (i2c_write addr reg bytes n s) = mk_Sys (hw s ++ added) (obj s) (host s) /\
  transactions added = 1%nat /\
  read_calls added = O /\
  length payload = Nat.min n (length bytes).
Proof.
  intros payload added. rewrite i2c_write_run. cbn [snd].
  destruct (payload_calls payload) as [Ht Hr].
  split; [|split; [|split]].
  - subst added payload. rewrite map_map, <- app_assoc. reflexivity.
  - subst added. cbn [transactions]. rewrite transactions_app, Ht. reflexivity.
  - subst added. cbn [read_calls]. rewrite read_calls_app, Hr. reflexivity.
  - subst payload. rewrite length_map, length_firstn. reflexivity.
Qed.


(** X3: when the chip acknowledges but delivers nothing, so that every
    [Wire.read] gives -1, [i2c_read] still reports success and fills the
    first [n] bytes of the buffer with 0xFF. *)
Theorem i2c_read_without_data
    (addr reg : Z) (buf : list Z) (n : nat) (s : State) :
  let t1 := hw s ++ [BeginTransmission (to_uint16 addr);
                     WriteByte (to_uint8 reg)] in
  let t2 := t1 ++ [EndTransmission true;
                   RequestFrom (to_uint16 addr) n true] in
  to_uint8 (endTransmission_status t1) = 0 ->
  (forall i, (i < n)%nat -> read_value (t2 ++ repeat ReadByte i) = -1) ->
  fst (i2c_read addr reg buf n s) = (0, repeat 255 n ++ skipn n buf).
Proof.
  intros t1 t2 Hok Hnone. rewrite i2c_read_run. fold t1 t2.
  rewrite Hok. cbn [Z.eqb fst]. f_equal. f_equal.
  unfold received. clear Hok.
  assert (H : forall k, (k <= n)%nat ->
            map (fun i => to_uint8 (read_value (t2 ++ repeat ReadByte i)))
                (seq 0 k) = repeat 255 k).
  { induction k as [|k IH]; intros Hk; [reflexivity|].
    rewrite seq_S, map_app, IH by lia. cbn [map Nat.add].
    rewrite Hnone by lia. change (to_uint8 (-1)) with 255.
    rewrite <- repeat_cons. reflexivity. }
  apply H. lia.
Qed.

End TransportFacts.

(** ** Further properties: decoding *)

Section DecodeFacts.

Context {header : Header} {platform : Platform}.

Lemma top_bits_range (b : Z) : is_byte b -> 0 <= Z.shiftr b 6 <= 3.
Proof.
  unfold is_byte. intros Hb. rewrite Z.shiftr_div_pow2 by lia.
  change (2 ^ 6) with 64. split.
  - apply Z.div_pos; lia.
  - apply Z.lt_succ_r. apply Z.div_lt_upper_bound; lia.
Qed.

(** The buffer [read_touch] decodes holds bytes, read or not. *)
Lemma read_touch_buffer_bytes (junk : list Z) (s : State) :
  Forall is_byte
    (snd (fst (i2c_read CST816S_ADDRESS 0x01 (array8 junk) 6 s))).
Proof.
  rewrite register_read_run by lia. cbn [fst snd].
  destruct (read_ok (hw s) 1).
  - apply Forall_app. split.
    + apply received_bytes.
    + apply Forall_forall. intros v Hv.
      pose proof (array8_bytes junk) as Ha. rewrite Forall_forall in Ha.
      apply Ha. rewrite <- (firstn_skipn 6 (array8 junk)).
      apply in_or_app. right. exact Hv.
  - apply array8_bytes.
Qed.

(** [read_touch] on an acknowledged read, in full. *)
Lemma read_touch_ok_run (junk : list Z) (s : State) :
  read_ok (hw s) 0x01 = true ->
  let packet := read_bytes (hw s) 0x01 6 in
  read_touch junk s
  = (tt, mk_Sys (hw s ++ register_read 0x01 6 true)
           (with_data (fun d =>
              mk_data (nth 0 packet 0) (nth 1 packet 0)
                      (Z.shiftr (nth 2 packet 0) 6)
                      (coordinate (nth 2 packet 0) (nth 3 packet 0))
                      (coordinate (nth 4 packet 0) (nth 5 packet 0))
                      (version d) (versionInfo d))
              (obj s))
           (host s)).
Proof.
  intros Hok packet. rewrite read_touch_run. cbn zeta.
  rewrite register_read_run by lia. rewrite Hok. cbn [fst snd hw obj host].
  fold packet.
  assert (Hn : forall i, (i < 6)%nat ->
            nth i (packet ++ skipn 6 (array8 junk)) 0 = nth i packet 0).
  { intros i Hi. apply app_nth1. unfold packet, read_bytes.
    rewrite received_length. exact Hi. }
  rewrite !Hn by lia.
  assert (Hb : is_byte (nth 2 packet 0))
    by (apply nth_byte, received_bytes).
  rewrite (to_uint8_small (Z.shiftr (nth 2 packet 0) 6))
    by (pose proof (top_bits_range _ Hb); lia).
  reflexivity.
Qed.

(** X4: on an acknowledged read the touch event is rebuilt from the six
    bytes received and from nothing else: gesture and point count are
    bytes 0 and 1, the event is the top two bits of byte 2 (0 to 3), and
    the coordinates come from bytes 2 to 5.  The version fields, the pins,
    the pending flag and the callback stay as they were. *)
Theorem read_touch_decodes_packet (junk : list Z) (s : State) :
  read_ok (hw s) 0x01 = true ->
  let packet := read_bytes (hw s) 0x01 6 in
  let o := obj (snd (read_touch junk s)) in
  data o
  = mk_data (nth 0 packet 0) (nth 1 packet 0)
            (Z.shiftr (nth 2 packet 0) 6)
            (Z.shiftl (Z.land (nth 2 packet 0) 0xF) 8 + nth 3 packet 0)
            (Z.shiftl (Z.land (nth 4 packet 0) 0xF) 8 + nth 5 packet 0)
            (version (data (obj s))) (versionInfo (data (obj s))) /\
  0 <= event (data o) <= 3 /\
  o = with_data (fun _ => data o) (obj s).
Proof.
  intros Hok packet o. subst o.
  rewrite (read_touch_ok_run junk s Hok). cbn [snd obj data with_data event].
  fold packet. split; [reflexivity|]. split; [|reflexivity].
  apply top_bits_range, nth_byte. unfold packet, read_bytes.
  apply received_bytes.
Qed.

(** X5: whatever the bus does, after [read_touch] the gesture and the
    point count are bytes, the event is at most 3 and both coordinates are
    at most 4095; the version fields, the pins, the pending flag, the
    callback and the host are untouched. *)
Theorem read_touch_fields_in_range (junk : list Z) (s : State) :
  let s' := snd (read_touch junk s) in
  let d := data (obj s') in
  is_byte (gestureID d) /\ is_byte (points d) /\
  0 <= event d <= 3 /\ 0 <= x d <= 4095 /\ 0 <= y d <= 4095 /\
  version d = version (data (obj s)) /\
  versionInfo d = versionInfo (data (obj s)) /\
  obj s' = with_data (fun _ => d) (obj s) /\
  host s' = host s.
Proof.
  intros s' d. subst d s'. rewrite read_touch_run. cbn zeta.
  pose proof (read_touch_buffer_bytes junk s) as Hbytes.
  pose proof (i2c_read_run CST816S_ADDRESS 1 (array8 junk) 6 s) as Hrun.
  cbn zeta in Hrun.
  set (r := i2c_read CST816S_ADDRESS 1 (array8 junk) 6 s) in *.
  assert (Hframe : obj (snd r) = obj s /\ host (snd r) = host s).
  { rewrite Hrun. destruct (_ =? 0); split; reflexivity. }
  destruct Hframe as [Ho Hh].
  cbn [snd obj host data with_data gestureID points event x y
       version versionInfo].
  rewrite Ho, Hh.
  set (raw := snd (fst r)) in *.
  pose proof (nth_byte raw 0 Hbytes) as H0.
  pose proof (nth_byte raw 1 Hbytes) as H1.
  pose proof (nth_byte raw 2 Hbytes) as H2.
  pose proof (nth_byte raw 3 Hbytes) as H3.
  pose proof (nth_byte raw 5 Hbytes) as H5.
  pose proof (top_bits_range _ H2) as He.
  rewrite (to_uint8_small (Z.shiftr (nth 2 raw 0) 6)) by lia.
  repeat split; try reflexivity;
    try (apply H0); try (apply H1); try (apply He);
    try (apply (coordinate_range _ _ H3));
    try (apply (coordinate_range _ _ H5)).
Qed.

(** X6: when the chip acknowledges the read of register 0x01 but delivers
    nothing, the poll does not fail: every field is decoded from 0xFF
    bytes, giving gesture 255, 255 points, event 3 and both coordinates
    4095. *)
Theorem read_touch_without_data (junk : list Z) (s : State) :
  read_ok (hw s) 0x01 = true ->
  (forall i, (i < 6)%nat ->
     read_value
       ((hw s ++ address_phase 0x01 ++
         [EndTransmission true;
          RequestFrom (to_uint16 CST816S_ADDRESS) 6 true]) ++
        repeat ReadByte i) = -1) ->
  data (obj (snd (read_touch junk s)))
  = mk_data 255 255 3 4095 4095
            (version (data (obj s))) (versionInfo (data (obj s))).
Proof.
  intros Hok Hnone.
  rewrite (read_touch_ok_run junk s Hok). cbn [snd obj data with_data].
  assert (Hb : forall i, (i < 6)%nat ->
            nth i (read_bytes (hw s) 1 6) 0 = 255).
  { intros i Hi. unfold read_bytes. rewrite received_nth by exact Hi.
    rewrite Hnone by exact Hi. reflexivity. }
  rewrite !Hb by lia. reflexivity.
Qed.

End DecodeFacts.

(** ** Further properties: configuration, gestures, interrupts *)

Section DriverFacts.

Context {header : Header} {platform : Platform}.

(** X7: [sleep] pulses the reset pin the driver holds, low for 5 ms and
    high for 50 ms, then makes the calls of one single-byte write of 0x03
    to register 0xA5.  It waits for no answer and changes neither the
    driver object nor the host, whatever status the write ends with. *)
Theorem sleep_calls (s : State) :
  let rst := _rst (obj s) in
  sleep s
  = (tt, mk_Sys (hw s ++ [DigitalWrite rst LOW; Delay 5;
                          DigitalWrite rst HIGH; Delay 50]
                      ++ register_write 0xA5 0x03)
                (obj s) (host s)).
Proof.
  intros rst. unfold sleep.
  unfold bind at 1 2 3 4 5, this, digitalWrite, delay, call.
  cbn [hw obj host]. cbn zeta. rewrite drop_status.
  rewrite write_register_run by lia. cbn [hw obj host].
  rewrite <- !app_assoc. reflexivity.
Qed.

(** X8: [set_motion_mask] and [set_irq_control] each make the calls of one
    single-byte write, to register 0xEC and 0xFA, of the low eight bits of
    the mask; nothing of the driver object or the host changes. *)
Theorem mask_setters_calls (mask : Z) (s : State) :
  set_motion_mask mask s
  = (tt, mk_Sys (hw s ++ register_write 0xEC (mask mod 256))
                (obj s) (host s)) /\
  set_irq_control mask s
  = (tt, mk_Sys (hw s ++ register_write 0xFA (mask mod 256))
                (obj s) (host s)).
Proof.
  pose proof (to_uint8_range mask) as Hm.
  unfold set_motion_mask, set_irq_control. cbn zeta.
  rewrite !drop_status, !write_register_run by lia. split; reflexivity.
Qed.

(** X9: [disable_auto_sleep] writes the byte 0xFE and [enable_auto_sleep]
    the byte 0x00, both to register 0xFE, each as one single-byte write. *)
Theorem auto_sleep_calls (s : State) :
  disable_auto_sleep s
  = (tt, mk_Sys (hw s ++ register_write 0xFE 0xFE) (obj s) (host s)) /\
  enable_auto_sleep s
  = (tt, mk_Sys (hw s ++ register_write 0xFE 0x00) (obj s) (host s)).
Proof.
  unfold disable_auto_sleep, enable_auto_sleep. cbn zeta.
  rewrite !drop_status, !write_register_run by lia. split; reflexivity.
Qed.

(** X10: [enable_double_click] is [set_motion_mask 0x01]: one write of 0x01
    to register 0xEC, with no write to the interrupt-control register; and
    [enable_double_click_interrupt_only] is [enable_double_click] followed
    by [set_irq_control 0x10]. *)
Theorem enable_double_click_is_motion_mask (s : State) :
  enable_double_click s = set_motion_mask 0x01 s /\
  enable_double_click s
  = (tt, mk_Sys (hw s ++ register_write 0xEC 0x01) (obj s) (host s)) /\
  enable_double_click_interrupt_only s
  = bind enable_double_click (fun _ => set_irq_control 0x10) s.
Proof.
  split; [reflexivity|]. split.
  - unfold enable_double_click. cbn zeta.
    rewrite drop_status, write_register_run by lia. reflexivity.
  - reflexivity.
Qed.

(** [gesture] on a stored byte that is the [i]-th code of the header. *)
Lemma gesture_of_code (i : nat) (s : State) :
  NoDup gesture_codes ->
  (i < 8)%nat ->
  gestureID (data (obj s)) = nth i gesture_codes 0 ->
  gesture s = (nth i gesture_labels ""%string, s).
Proof.
  intros Hnd Hi E. unfold gesture, bind, this, ret. cbn zeta. rewrite E.
  unfold gesture_codes in Hnd.
  repeat match goal with
         | H : NoDup (_ :: _) |- _ => inversion H; subst; clear H
         end.
  repeat match goal with
         | H : ~ In _ _ |- _ => cbn [In] in H
         end.
  do 8 (destruct i as [|i]; [
    cbn [nth gesture_codes gesture_labels];
    repeat match goal with
           | |- context [if ?a =? ?c then _ else _] =>
               first
                 [ constr_eq a c; rewrite (Z.eqb_refl a)
                 | let H := fresh in
                   assert (H : (a =? c) = false)
                     by (apply Z.eqb_neq; intuition congruence);
                   rewrite H; clear H ]
           end;
    reflexivity |]).
  exfalso. clear - Hi. lia.
Qed.

(** X11: with the header's eight codes pairwise distinct, [gesture] gives
    each code its own label (NONE, SWIPE DOWN, SWIPE UP, SWIPE LEFT,
    SWIPE RIGHT, SINGLE CLICK, DOUBLE CLICK, LONG PRESS) and changes
    nothing. *)
Theorem gesture_names_every_code (i : nat) (s : State) :
  NoDup gesture_codes ->
  (i < 8)%nat ->
  gestureID (data (obj s)) = nth i gesture_codes 0 ->
  gesture s = (nth i gesture_labels ""%string, s).
Proof. intros Hnd Hi E. apply gesture_of_code; assumption. Qed.

(** X12: with no callback attached, any burst of edges leaves exactly one
    thing behind, the pending flag: no hardware call is made, and the
    touch event, the pins and the host are as before, however many edges
    there were. *)
Theorem edges_without_callback (n : nat) (s : State) :
  userISR (obj s) = None ->
  edges (S n) s
  = (tt, mk_Sys (hw s) (with_event_available true (obj s)) (host s)).
Proof.
  intros Hnone. revert s Hnone. induction n as [|k IH]; intros s Hnone.
  - cbn [edges]. unfold bind, handleISR, update, this, ret, bind.
    cbn [obj hw host userISR with_event_available]. rewrite Hnone.
    reflexivity.
  - change (edges (S (S k))) with (bind handleISR (fun _ => edges (S k))).
    unfold bind at 1.
    assert (E : handleISR s
                = (tt, mk_Sys (hw s) (with_event_available true (obj s))
                              (host s))).
    { unfold handleISR, bind, update, this, ret.
      cbn [obj hw host userISR with_event_available]. rewrite Hnone.
      reflexivity. }
    rewrite E, IH by exact Hnone. reflexivity.
Qed.

(** X13: once a callback is attached with [attachUserInterrupt], and as
    long as the callback does not replace itself, every edge sets the
    pending flag first and then runs that callback exactly once: [n] edges
    are [n] rounds of "set the flag, run the callback". *)
Theorem attached_callback_runs_per_edge
    (cb : callback) (n : nat) (s : State) :
  (forall st : State, userISR (obj (invoke cb st)) = userISR (obj st)) ->
  let armed := snd (attachUserInterrupt (Some cb) s) in
  let round (st : State) : State :=
    invoke cb (mk_Sys (hw st) (with_event_available true (obj st))
                      (host st)) in
  armed = mk_Sys (hw s) (with_userISR (Some cb) (obj s)) (host s) /\
  edges n armed = (tt, Nat.iter n round armed).
Proof.
  intros Hkeep armed round. split; [reflexivity|].
  assert (Harmed : userISR (obj armed) = Some cb) by reflexivity.
  clearbody armed. revert armed Harmed.
  induction n as [|k IH]; intros st Hst; [reflexivity|].
  change (edges (S k)) with (bind handleISR (fun _ => edges k)).
  unfold bind at 1.
  assert (E : handleISR st = (tt, round st)).
  { unfold handleISR, bind, update, this, ret.
    cbn [obj hw host userISR with_event_available]. rewrite Hst.
    reflexivity. }
  rewrite E, IH by (unfold round; rewrite Hkeep; exact Hst).
  rewrite Nat.iter_succ_r. reflexivity.
Qed.

End DriverFacts.

(** ** Further properties: initialisation and end to end *)

Section LifecycleFacts.

Context {header : Header} {platform : Platform} {board : Board}.

(** [begin] in one step. *)
Lemma begin_run (interrupt : Z) (s : State) :
  let o := obj s in
  let t0 := hw s ++ reset_sequence (_rst o) in
  let ok1 := read_ok t0 0x15 in
  let t1 := t0 ++ register_read 0x15 1 ok1 ++ [Delay 5] in
  let ok2 := read_ok t1 0xA7 in
  begin interrupt s
  = (tt, mk_Sys (t1 ++ register_read 0xA7 3 ok2)
           (with_data (fun d =>
              set_versionInfo
                (if ok2 then read_bytes t1 0xA7 3 ++ skipn 3 (versionInfo d)
                 else versionInfo d)
                (set_version
                   (if ok1 then nth 0 (read_bytes t0 0x15 1) 0
                    else version d) d)) o)
           (attachInterrupt (_irq o) interrupt
              (t1 ++ register_read 0xA7 3 ok2)
              (pinMode (_rst o) OUTPUT (hw s)
                 (pinMode (_irq o) INPUT_PULLUP (hw s)
                    (Wire_begin (_sda o) (_scl o) (hw s) (host s)))))).
Proof.
  intros o t0 ok1 t1 ok2.
  unfold begin, bind, this, on_board, digitalWrite, delay, call, update.
  cbn [hw obj host].
  replace (((((((hw s ++ [DigitalWrite (_rst (obj s)) HIGH]) ++ [Delay 50])
               ++ [DigitalWrite (_rst (obj s)) LOW]) ++ [Delay 5])
             ++ [DigitalWrite (_rst (obj s)) HIGH]) ++ [Delay 50]))
    with t0
    by (subst t0 o; unfold reset_sequence; rewrite <- !app_assoc;
        reflexivity).
  rewrite register_read_run by lia. cbn [hw obj host fst snd]. fold ok1.
  replace ((t0 ++ register_read 21 1 ok1) ++ [Delay 5]) with t1
    by (subst t1; rewrite <- app_assoc; reflexivity).
  rewrite register_read_run by lia. cbn [hw obj host fst snd]. fold ok2.
  unfold with_data, set_version, set_versionInfo.
  cbn [_sda _scl _rst _irq data _event_available userISR gestureID points
       event x y version versionInfo].
  assert (E1 : nth 0 (if ok1
                      then read_bytes t0 21 1 ++ skipn 1 [version (data (obj s))]
                      else [version (data (obj s))]) 0
               = if ok1 then nth 0 (read_bytes t0 21 1) 0
                 else version (data (obj s))).
  { destruct ok1; [|reflexivity].
    apply app_nth1. unfold read_bytes. rewrite received_length. lia. }
  rewrite E1. reflexivity.
Qed.

Lemma register_read_transactions (reg : Z) (n : nat) (ok : bool) :
  transactions (register_read reg n ok) = 1%nat.
Proof.
  unfold register_read, address_phase. destruct ok; cbn [app transactions].
  - destruct (reads_calls n) as [Ht _]. rewrite Ht. reflexivity.
  - reflexivity.
Qed.

(** X14: [begin] calls [Wire.begin], [pinMode] for the interrupt pin and
    [pinMode] for the reset pin, in that order, before it makes any GPIO
    or bus call; it then pulses the reset pin high 50 ms, low 5 ms, high
    50 ms, reads one byte from register 0x15, waits 5 ms and reads three
    bytes from register 0xA7; and it calls [attachInterrupt] only after
    the last of these calls.  The second read is attempted even when the
    first is not acknowledged: two transactions are opened in every
    case. *)
Theorem begin_calls (interrupt : Z) (s : State) :
  let o := obj s in
  let t0 := hw s ++ reset_sequence (_rst o) in
  let ok1 := read_ok t0 0x15 in
  let t1 := t0 ++ register_read 0x15 1 ok1 ++ [Delay 5] in
  let ok2 := read_ok t1 0xA7 in
  let added := reset_sequence (_rst o) ++ register_read 0x15 1 ok1
               ++ [Delay 5] ++ register_read 0xA7 3 ok2 in
  let s' := snd (begin interrupt s) in
  hw s' = hw s ++ added /\
  transactions added = 2%nat /\
  host s' = attachInterrupt (_irq o) interrupt (hw s ++ added)
              (pinMode (_rst o) OUTPUT (hw s)
                 (pinMode (_irq o) INPUT_PULLUP (hw s)
                    (Wire_begin (_sda o) (_scl o) (hw s) (host s)))).
Proof.
  intros o t0 ok1 t1 ok2 added s'. subst s'. rewrite begin_run.
  cbn [snd hw host]. fold o t0 ok1 t1 ok2.
  assert (Ht : t1 ++ register_read 167 3 ok2 = hw s ++ added)
    by (subst added t1 t0; rewrite <- !app_assoc; reflexivity).
  split; [exact Ht|]. split.
  - subst added. rewrite !transactions_app, !register_read_transactions.
    reflexivity.
  - rewrite Ht. reflexivity.
Qed.

(** X15: [begin] reads the firmware version straight into the driver
    object, so each version field changes only if its own read is
    acknowledged: an unacknowledged read leaves the field as it was, and
    the two reads succeed or fail independently.  The touch fields, the
    pending flag, the pins and the callback are not touched. *)
Theorem begin_version_probe (interrupt : Z) (s : State) :
  length (versionInfo (data (obj s))) = 3%nat ->
  let o := obj s in
  let t0 := hw s ++ reset_sequence (_rst o) in
  let ok1 := read_ok t0 0x15 in
  let t1 := t0 ++ register_read 0x15 1 ok1 ++ [Delay 5] in
  let ok2 := read_ok t1 0xA7 in
  let o' := obj (snd (begin interrupt s)) in
  version (data o')
  = (if ok1 then nth 0 (read_bytes t0 0x15 1) 0 else version (data o)) /\
  versionInfo (data o')
  = (if ok2 then read_bytes t1 0xA7 3 else versionInfo (data o)) /\
  length (versionInfo (data o')) = 3%nat /\
  is_byte (nth 0 (read_bytes t0 0x15 1) 0) /\
  o' = with_data (fun d => set_versionInfo (versionInfo (data o'))
                             (set_version (version (data o')) d)) o.
Proof.
  intros Hlen o t0 ok1 t1 ok2 o'. subst o'. rewrite begin_run.
  cbn [snd obj]. fold o t0 ok1 t1 ok2.
  assert (Hvi : (if ok2
                 then read_bytes t1 167 3 ++ skipn 3 (versionInfo (data o))
                 else versionInfo (data o))
                = if ok2 then read_bytes t1 167 3 else versionInfo (data o)).
  { destruct ok2; [|reflexivity].
    rewrite skipn_all2 by (subst o; lia). apply app_nil_r. }
  unfold with_data at 1 2 3. cbn [data]. unfold set_versionInfo at 1 2 3.
  cbn [version versionInfo]. unfold set_version at 1 2.
  cbn [version versionInfo]. rewrite Hvi.
  split; [reflexivity|]. split; [reflexivity|]. split; [|split].
  - destruct ok2; [|exact Hlen]. unfold read_bytes. apply received_length.
  - apply nth_byte. unfold read_bytes. apply received_bytes.
  - unfold with_data, set_versionInfo, set_version.
    cbn [_sda _scl _rst _irq data _event_available userISR gestureID points
         event x y version versionInfo].
    rewrite Hvi. reflexivity.
Qed.

(** X16: end to end, a pending event whose read is acknowledged: the poll
    returns true, and [gesture] then names the code the chip sent as the
    first byte of the packet, whatever gesture was stored before. *)
Theorem poll_then_gesture (i : nat) (junk : list Z) (s : State) :
  NoDup gesture_codes ->
  _event_available (obj s) = true ->
  read_ok (hw s) 0x01 = true ->
  (i < 8)%nat ->
  nth 0 (read_bytes (hw s) 0x01 6) 0 = nth i gesture_codes 0 ->
  let r := available junk s in
  fst r = true /\
  gesture (snd r) = (nth i gesture_labels ""%string, snd r).
Proof.
  intros Hnd Hpending Hok Hi Hcode r. subst r.
  rewrite available_pending_run by exact Hpending.
  cbn [fst snd]. split; [reflexivity|].
  apply gesture_of_code; [exact Hnd | exact Hi |].
  cbn zeta. rewrite (read_touch_ok_run junk s Hok).
  cbn [snd obj data with_data with_event_available gestureID].
  exact Hcode.
Qed.

End LifecycleFacts.

(** ** The further properties at work on the sample platforms *)

Lemma i2c_read_without_data_witness :
  let s := sample_state false 0 in
  to_uint8 (@endTransmission_status (ack_bus [])
              (hw s ++ [BeginTransmission (to_uint16 0x15);
                        WriteByte (to_uint8 0xA7)])) = 0 /\
  fst (@i2c_read (ack_bus []) 0x15 0xA7 [1; 2; 3; 4] 3 s)
  = (0, [255; 255; 255; 4]).
Proof.
  intros s. split; [reflexivity|].
  apply (@i2c_read_without_data (ack_bus []) 0x15 0xA7 [1; 2; 3; 4] 3 s).
  - reflexivity.
  - intros i Hi. cbn [read_value ack_bus]. destruct (reads_made _); reflexivity.
Defined.

Lemma read_touch_decodes_packet_witness :
  let s := sample_state true 0 in
  let P := ack_bus sample_packet in
  @read_ok sample_header P (hw s) 0x01 = true /\
  data (obj (snd (@read_touch sample_header P stale_stack s)))
  = mk_data 0x0B 0x01 2 0xFFF 0x037 0 [0; 0; 0].
Proof.
  intros s P.
  assert (Hok : @read_ok sample_header P (hw s) 0x01 = true) by reflexivity.
  destruct (@read_touch_decodes_packet sample_header P stale_stack s Hok)
    as (Hd & _ & _).
  split; [exact Hok|]. rewrite Hd. reflexivity.
Defined.

Lemma read_touch_without_data_witness :
  let s := sample_state true 0x0B in
  let P := ack_bus [] in
  @read_ok sample_header P (hw s) 0x01 = true /\
  data (obj (snd (@read_touch sample_header P stale_stack s)))
  = mk_data 255 255 3 4095 4095 0 [0; 0; 0].
Proof.
  intros s P.
  assert (Hok : @read_ok sample_header P (hw s) 0x01 = true) by reflexivity.
  split; [exact Hok|].
  apply (@read_touch_without_data sample_header P stale_stack s Hok).
  intros i Hi. cbn [read_value P ack_bus]. destruct (reads_made _); reflexivity.
Defined.

Lemma gesture_names_every_code_witness :
  let s := sample_state false 0x02 in
  NoDup (@gesture_codes sample_header) /\
  @gesture sample_header nack_bus s = ("SWIPE DOWN"%string, s).
Proof.
  intros s.
  assert (Hnd : NoDup (@gesture_codes sample_header)).
  { unfold gesture_codes.
    repeat (constructor; [cbn; intuition discriminate|]). constructor. }
  split; [exact Hnd|].
  apply (@gesture_names_every_code sample_header nack_bus 1 s Hnd).
  - lia.
  - reflexivity.
Defined.

Lemma edges_without_callback_witness :
  let s := probed_state false in
  userISR (obj s) = None /\
  @edges (logging_bus sample_packet) 3 s = (tt, probed_state true).
Proof.
  intros s. split; [reflexivity|].
  apply (@edges_without_callback (logging_bus sample_packet) 2 s).
  reflexivity.
Defined.

Lemma attached_callback_runs_per_edge_witness :
  let P := ack_bus sample_packet in
  let s := snd (@attachUserInterrupt P None (sample_state false 0)) in
  (forall st : @State P,
     userISR (obj (@invoke P tt st)) = userISR (obj st)) /\
  userISR (obj s) = None /\
  host (snd (@edges P 3 (snd (@attachUserInterrupt P (Some tt) s)))) = 3%nat.
Proof.
  intros P s.
  assert (Hkeep : forall st : @State P,
            userISR (obj (@invoke P tt st)) = userISR (obj st))
    by (intros st; reflexivity).
  split; [exact Hkeep|]. split; [reflexivity|].
  pose proof (@attached_callback_runs_per_edge P tt 3 s Hkeep) as H.
  cbv zeta in H. destruct H as [_ He].
  exact (eq_trans (f_equal (fun r => host (snd r)) He) eq_refl).
Defined.

Lemma begin_version_probe_witness :
  let s := probed_state true in
  let o' := obj (snd (@begin sample_header first_only_bus first_only_board
                        2 s)) in
  length (versionInfo (data (obj s))) = 3%nat /\
  data o' = mk_data 0x05 1 2 100 200 0xB5 [1; 2; 3] /\
  _event_available o' = true.
Proof.
  intros s o'.
  assert (Hlen : length (versionInfo (data (obj s))) = 3%nat) by reflexivity.
  destruct (@begin_version_probe sample_header first_only_bus
              first_only_board 2 s Hlen) as (Hv & Hvi & _ & _ & Ho).
  split; [exact Hlen|]. subst o'. rewrite Ho, Hv, Hvi.
  split; reflexivity.
Defined.

Lemma poll_then_gesture_witness :
  let s := sample_state true 0x02 in
  let P := ack_bus sample_packet in
  let r := @available sample_header P stale_stack s in
  NoDup (@gesture_codes sample_header) /\
  fst r = true /\
  fst (@gesture sample_header P (snd r)) = "DOUBLE CLICK"%string.
Proof.
  intros s P r.
  assert (Hnd : NoDup (@gesture_codes sample_header)).
  { unfold gesture_codes.
    repeat (constructor; [cbn; intuition discriminate|]). constructor. }
  destruct (@poll_then_gesture sample_header P 6 stale_stack s Hnd)
    as [Ht Hg]; try reflexivity; try lia.
  split; [exact Hnd|]. split; [exact Ht|].
  subst r. rewrite Hg. reflexivity.
Defined.

Lemma begin_calls_witness :
  let s := probed_state false in
  let s' := snd (@begin sample_header (logging_bus [0xB5; 7; 8; 9])
                   (logging_board [0xB5; 7; 8; 9]) 2 s) in
  length (hw s') = 19%nat /\
  transactions (hw s') = 2%nat /\
  host s' = [WireBegin 0 21 22; PinMode 0 4 0x05; PinMode 0 5 0x03;
             AttachInterrupt 19 4 2].
Proof.
  intros s s'.
  pose proof (@begin_calls sample_header (logging_bus [0xB5; 7; 8; 9])
                (logging_board [0xB5; 7; 8; 9]) 2 s) as H.
  cbv zeta in H. destruct H as (Hhw & Htr & Hhost).
  split; [exact (eq_trans (f_equal (@length HwCall) Hhw) eq_refl)|].
  split; [exact (eq_trans (f_equal transactions Hhw) eq_refl)|].
  exact (eq_trans Hhost eq_refl).
Defined.
